(** * VoiceCloningDemo: the TTS comparison page and its audio controls

    A shallow embedding of the React components of the page
    ([AudioPlayer], [ColumnHeader], [TTSSection], [ModelSection]) and of the
    event handling of one [AudioPlayer] instance.

    The repository holds two revisions of the page: [src/src/App.tsx] and
    [src/unnamed/part_000].  They agree on every component except for the
    "Generated Speech" cell of a table row; the two row callbacks live in
    the modules [App] and [Part000] below, everything else is shared.

    - The element tree a component returns is a value of type [node].
    - The callback given to [data.map] receives a reference to a row object,
      which JavaScript lets it mutate: the callback is a computation in the
      state monad [RowM] whose state is that row object.
    - An event handler of an [AudioPlayer] instance is a computation in
      [Eff], a state-and-exception monad over the instance (its [useState]
      cell and the audio element its [useRef] cell holds).
    - In a page the same handler is a computation in [PageEff], over all the
      mounted controls, the promises their elements have returned and the
      rejections the window has been told of: there a statement names the
      control it acts on. *)

From stdpp Require Import base list strings pretty.

Set Warnings "-register-all".

(** ** Data model (the interfaces at the top of the file) *)

(** [interface TTSData]: six required fields of type [string]. *)
Record TTSData : Type := mkTTSData {
  speakerId : string;
  originalText : string;
  originalSpeech : string;
  generatedSpeech : string;
  generateText : string;
  generatedSpeechNew : string;
}.

(** JavaScript truthiness of a string: only the empty string is falsy. *)
Definition truthy (s : string) : bool :=
  match s with
  | EmptyString => false
  | String _ _ => true
  end.

(** [columnDescriptions] *)
Module columnDescriptions.
Definition speaker := "Unique identifier for each speaker in the dataset".
Definition originalText := "Transcription of the original recorded speech".
Definition originalSpeech := "Original audio recording from the speaker".
Definition generatedSpeech :=
  "Speech generated using the original text, with the original speech as voice reference input".
Definition generateText := "New text input for speech synthesis".
Definition generatedSpeechNew :=
  "Speech generated using the new text, with the original speech as voice reference input".
End columnDescriptions.

(** ** Element trees *)

(** What a JSX expression evaluates to.  [El] is a host element or one of
    the imported layout components ([Card], [Table], [TableRow], ...), which
    only wrap their children; [AudioPlayerEl] and [ColumnHeaderEl] are
    elements of the two components defined in the file, with their props. *)
Inductive node : Type :=
  | Text (s : string)
  | Num (n : nat)
  | El (tag : string) (key : option nat) (className : option string)
       (children : list node)
  | AudioPlayerEl (src : string) (label : option string)
  | ColumnHeaderEl (title description : string).

(** Props of the [AudioPlayer] elements of a tree, in document order. *)
Fixpoint players (n : node) : list (string * option string) :=
  match n with
  | El _ _ _ children => flat_map players children
  | AudioPlayerEl src label => [(src, label)]
  | Text _ | Num _ | ColumnHeaderEl _ _ => []
  end.

Definition players_of (ns : list node) : list (string * option string) :=
  flat_map players ns.

(** The text a tree puts on the screen.  React renders the empty string as
    nothing; an [AudioPlayer] shows its label beside an icon; a
    [ColumnHeader] shows its title beside an icon, its description staying
    in the closed tooltip. *)
Definition string_of_nat (n : nat) : string := pretty n.

Fixpoint textContent (n : node) : string :=
  match n with
  | Text s => s
  | Num k => string_of_nat k
  | El _ _ _ children =>
      fold_right (λ c acc, textContent c +:+ acc) EmptyString children
  | AudioPlayerEl _ label => default EmptyString label
  | ColumnHeaderEl title _ => title
  end.

(** Children of an element; a leaf has none. *)
Definition children_of (n : node) : list node :=
  match n with
  | El _ _ _ children => children
  | _ => []
  end.

Definition tag_of (n : node) : option string :=
  match n with
  | El tag _ _ _ => Some tag
  | _ => None
  end.

Definition key_of (n : node) : option nat :=
  match n with
  | El _ key _ _ => key
  | _ => None
  end.

(** The child at a path of child indices. *)
Fixpoint at_path (p : list nat) (n : node) : option node :=
  match p with
  | [] => Some n
  | i :: p' =>
      match children_of n !! i with
      | Some c => at_path p' c
      | None => None
      end
  end.

(** ** The row callback as a computation over the row object *)

Definition RowM (A : Type) : Type := TTSData → A * TTSData.

Definition row_ret {A} (a : A) : RowM A := λ row, (a, row).

Definition row_bind {A B} (m : RowM A) (k : A → RowM B) : RowM B :=
  λ row, let '(a, row') := m row in k a row'.

(** [row.f]: a property read. *)
Definition read {A} (f : TTSData → A) : RowM A := λ row, (f row, row).

Notation "'let*' x := m 'in' k" := (row_bind m (λ x, k))
  (at level 10, x name, m at level 100, k at level 200).

(** [data.map(cb)]: the callback runs on every element with its index, in
    array order; the second component is the array of row objects as the
    callbacks left them. *)
Fixpoint array_map (cb : nat → RowM node) (idx : nat) (data : list TTSData)
  : list node * list TTSData :=
  match data with
  | [] => ([], [])
  | row :: rest =>
      let '(n, row') := cb idx row in
      let '(ns, rest') := array_map cb (S idx) rest in
      (n :: ns, row' :: rest')
  end.

(** ** Components *)

(** The six [TableCell]s of a row, given the children of the
    "Generated Speech" cell. *)
Definition row_cells (r_speakerId r_originalText r_originalSpeech : string)
    (generatedCell : list node) (r_generateText r_generatedSpeechNew : string)
  : list node :=
  [ El "TableCell" None (Some "w-32 font-medium text-left") [Text r_speakerId];
    El "TableCell" None (Some "max-w-64")
      [El "div" None (Some "text-sm text-gray-600 text-left")
         [Text r_originalText]];
    El "TableCell" None None
      [AudioPlayerEl r_originalSpeech (Some "Original")];
    El "TableCell" None None generatedCell;
    El "TableCell" None (Some "max-w-64")
      [El "div" None (Some "text-sm text-gray-600 text-left")
         [Text r_generateText]];
    El "TableCell" None None
      [AudioPlayerEl r_generatedSpeechNew (Some "New Generated")] ].

Definition table_row (idx : nat) (cells : list node) : node :=
  El "TableRow" (Some idx)
     (Some "hover:bg-gray-50 transition-colors duration-200") cells.

(** The header row of the table: six [ColumnHeader]s. *)
Definition header_cell (title description : string) : node :=
  El "TableHead" None (Some "font-semibold text-left")
     [ColumnHeaderEl title description].

Definition table_header : node :=
  El "TableHeader" None None
    [El "TableRow" None (Some "bg-gray-50")
       [ header_cell "Speaker" columnDescriptions.speaker;
         header_cell "Original Text" columnDescriptions.originalText;
         header_cell "Original Speech" columnDescriptions.originalSpeech;
         header_cell "Generated Speech" columnDescriptions.generatedSpeech;
         header_cell "Generate Text" columnDescriptions.generateText;
         header_cell "Generated Speech (New)"
           columnDescriptions.generatedSpeechNew ]].

(** [TTSSection], with the row callback [cb] of the revision at hand.
    [data.length] is read before [data.map] runs. *)
Definition TTSSection_of (cb : nat → RowM node) (title : string)
    (data : list TTSData) : node * list TTSData :=
  let count := length data in
  let '(rows, data') := array_map cb 0 data in
  (El "div" None (Some "space-y-4")
     [ El "div" None (Some "flex items-center justify-center gap-2")
         [ El "h3" None (Some "text-lg font-semibold text-gray-800")
             [Text title];
           El "div" None (Some "text-sm text-gray-500")
             [Text "("; Num count; Text " samples)"] ];
       El "div" None
         (Some "overflow-x-auto rounded-lg border border-gray-200 shadow-sm")
         [ El "Table" None None
             [ table_header;
               El "TableBody" None None rows ] ] ],
   data').

(** [ModelSection], over the [TTSSection] of the revision at hand: the train
    section is evaluated first, the test section second. *)
Definition ModelSection_of
    (section : string → list TTSData → node * list TTSData)
    (title : string) (trainData testData : list TTSData)
  : node * (list TTSData * list TTSData) :=
  let '(train, trainData') := section "Train (seen data)" trainData in
  let '(test, testData') := section "Test (unseen data)" testData in
  (El "Card" None (Some "mb-8 border-0 w-full shadow-lg mx-auto max-w-7xl")
     [ El "CardHeader" None
         (Some "bg-gradient-to-r from-blue-50 to-blue-100 rounded-t-lg text-center")
         [El "CardTitle" None (Some "text-xl text-blue-800") [Text title]];
       El "CardContent" None (Some "space-y-8 p-6") [train; test] ],
   (trainData', testData')).

(** The revision in [src/unnamed/part_000]: the "Generated Speech" cell
    holds [row.generatedSpeech && <AudioPlayer ... />], which evaluates to
    the left operand when that is falsy. *)
Module Part000.

Definition generated_cell : RowM node :=
  let* d := read generatedSpeech in
  if truthy d
  then (let* d' := read generatedSpeech in
        row_ret (AudioPlayerEl d' (Some "Generated")))
  else row_ret (Text d).

Definition row_cb (idx : nat) : RowM node :=
  let* a := read speakerId in
  let* b := read originalText in
  let* c := read originalSpeech in
  let* d := generated_cell in
  let* e := read generateText in
  let* f := read generatedSpeechNew in
  row_ret (table_row idx (row_cells a b c [d] e f)).

Definition TTSSection := TTSSection_of row_cb.
Definition ModelSection := ModelSection_of TTSSection.

End Part000.

(** The revision in [src/src/App.tsx]: the "Generated Speech" cell holds an
    [AudioPlayer] whatever [row.generatedSpeech] is. *)
Module App.

Definition row_cb (idx : nat) : RowM node :=
  let* a := read speakerId in
  let* b := read originalText in
  let* c := read originalSpeech in
  let* d := read generatedSpeech in
  let* e := read generateText in
  let* f := read generatedSpeechNew in
  row_ret (table_row idx
    (row_cells a b c [AudioPlayerEl d (Some "Generated")] e f)).

Definition TTSSection := TTSSection_of row_cb.
Definition ModelSection := ModelSection_of TTSSection.

End App.


(** ** The audio element and the [AudioPlayer] instance *)

(** Requests a component issues on its audio element. *)
Inductive request : Type := PlayRequest | PauseRequest.

(** The closures the component builds; the only one is
    [() => setIsPlaying(b)]. *)
Inductive handler : Type := SetIsPlaying (b : bool).

(** What [play()] returns: a promise, pending at the call.  Its [fate] is
    how the media backend settles it later: it fulfils it when playback
    starts and rejects it when the clip cannot be played. *)
Inductive settlement : Type := Fulfils | Rejects (reason : string).

Record promise : Type := Pending { fate : settlement }.

(** The part of an [HTMLAudioElement] the component touches: the source it
    was created with, the two event slots and the requests made of it.
    [loadable] is the backend's side: whether the clip can be fetched and
    decoded.  What the element does with a request is the backend's
    business and is not modelled. *)
Record HTMLAudioElement : Type := mkAudio {
  audio_src : string;
  loadable : bool;
  onended : option handler;
  onerror : option handler;
  requests : list request;
}.

(** [new Audio(src)] *)
Definition newAudio (backend : string → bool) (src : string)
  : HTMLAudioElement :=
  {| audio_src := src; loadable := backend src;
     onended := None; onerror := None; requests := [] |}.

(** One mounted [AudioPlayer]: its props, its [useState] cell and the
    element its [useRef] cell holds. *)
Record Instance : Type := mkInstance {
  label : option string;
  isPlaying : bool;
  audioRef : HTMLAudioElement;
}.

(** The first render: [useState(false)] and [useRef(new Audio(src))]. *)
Definition mountPlayer (backend : string → bool) (src : string)
    (lbl : option string) : Instance :=
  {| label := lbl; isPlaying := false; audioRef := newAudio backend src |}.

(** What the component returns; the button carries
    [onClick={handlePlayPause}]. *)
Definition AudioPlayer_view (s : Instance) : node :=
  El "div" None (Some "flex items-center justify-center gap-2 group")
    [ El "button" None
        (Some "p-2 rounded-full bg-gray-100 hover:bg-blue-100 transition-colors duration-200 group-hover:shadow-sm")
        [ if isPlaying s
          then El "Pause" None (Some "w-4 h-4 text-blue-600") []
          else El "Play" None (Some "w-4 h-4 text-blue-600") [] ];
      El "div" None
        (Some "text-sm text-gray-500 group-hover:text-blue-600 transition-colors duration-200")
        (match label s with Some l => [Text l] | None => [] end) ].

(** ** Event handlers: state and exceptions over the instance *)

Inductive outcome (A : Type) : Type :=
  | Returned (a : A) (s : Instance)
  | Threw (e : string) (s : Instance).
Arguments Returned {A} a s.
Arguments Threw {A} e s.

Definition Eff (A : Type) : Type := Instance → outcome A.

#[global] Instance Eff_ret : MRet Eff := λ A a s, Returned a s.

#[global] Instance Eff_bind : MBind Eff := λ A B k m s,
  match m s with
  | Returned a s' => k a s'
  | Threw e s' => Threw e s'
  end.

(** [throw e]; no handler of the component has such a statement. *)
Definition throw {A} (e : string) : Eff A := λ s, Threw e s.

Definition with_audio (f : HTMLAudioElement → HTMLAudioElement)
    (s : Instance) : Instance :=
  {| label := label s; isPlaying := isPlaying s; audioRef := f (audioRef s) |}.

(** [audioRef.current.pause()] *)
Definition audio_pause : Eff unit := λ s,
  Returned ()
    (with_audio (λ a,
       {| audio_src := audio_src a; loadable := loadable a;
          onended := onended a; onerror := onerror a;
          requests := requests a ++ [PauseRequest] |}) s).

(** [audioRef.current.play()]: the request is issued and a pending promise
    comes back at once; a clip that cannot be played gets its promise
    rejected later, the call does not throw. *)
Definition audio_play : Eff promise := λ s,
  Returned
    (Pending (if loadable (audioRef s) then Fulfils
              else Rejects "NotSupportedError"))
    (with_audio (λ a,
       {| audio_src := audio_src a; loadable := loadable a;
          onended := onended a; onerror := onerror a;
          requests := requests a ++ [PlayRequest] |}) s).

(** [audioRef.current.onended = h] *)
Definition assign_onended (h : handler) : Eff unit := λ s,
  Returned ()
    (with_audio (λ a,
       {| audio_src := audio_src a; loadable := loadable a;
          onended := Some h; onerror := onerror a;
          requests := requests a |}) s).

(** [setIsPlaying(b)] *)
Definition setIsPlaying (b : bool) : Eff unit := λ s,
  Returned ()
    {| label := label s; isPlaying := b; audioRef := audioRef s |}.

(** [handlePlayPause], a closure over the [isPlaying] of the render that
    built it.  The promise [play()] returns is dropped. *)
Definition handlePlayPause (isPlaying : bool) : Eff unit :=
  (if isPlaying then audio_pause else (_ ← audio_play; mret ())) ;;
  setIsPlaying (negb isPlaying) ;;
  assign_onended (SetIsPlaying false).

(** Calling the handler held by an event slot of the element. *)
Definition call (h : option handler) : Eff unit :=
  match h with
  | Some (SetIsPlaying b) => setIsPlaying b
  | None => mret ()
  end.

(** What can happen to a mounted control: a click on its button, or one
    of two notifications of the media backend, each of which calls what the
    matching slot of the element holds. *)
Inductive event : Type := Click | MediaEnded | MediaError.

Definition on_event (ev : event) : Eff unit := λ s,
  match ev with
  | Click => handlePlayPause (isPlaying s) s
  | MediaEnded => call (onended (audioRef s)) s
  | MediaError => call (onerror (audioRef s)) s
  end.

Definition state_of {A} (o : outcome A) : Instance :=
  match o with
  | Returned _ s | Threw _ s => s
  end.

(** One event followed by the re-render it schedules. *)
Definition step (ev : event) (s : Instance) : Instance :=
  state_of (on_event ev s).

Definition run (evs : list event) (s : Instance) : Instance :=
  fold_left (λ s ev, step ev s) evs s.

(** States a control can be in. *)
Inductive Reachable : Instance → Prop :=
  | Reachable_mount backend src lbl :
      Reachable (mountPlayer backend src lbl)
  | Reachable_step s ev :
      Reachable s → Reachable (step ev s).

(** What holds of every state a control can be in: no [onerror] handler is
    ever installed; the [onended] slot is empty or holds the reset closure,
    and it holds it whenever the control shows Playing. *)
Record control_inv (s : Instance) : Prop := {
  inv_onerror : onerror (audioRef s) = None;
  inv_onended :
    onended (audioRef s) = None
    ∨ onended (audioRef s) = Some (SetIsPlaying false);
  inv_playing :
    isPlaying s = true → onended (audioRef s) = Some (SetIsPlaying false);
}.

(** ** The page: the mounted controls, the promises and the window *)

(** A promise [play()] has returned, the rejection handlers attached to it
    (each a closure of some control), and whether it has settled. *)
Record pending : Type := mkPending {
  the_promise : promise;
  catchers : list (nat * handler);
  settled : bool;
}.

(** The mounted [AudioPlayer]s in document order, the promises their
    elements have returned, and the rejections the window has been told
    nobody handled ([unhandledrejection]). *)
Record Page : Type := mkPage {
  controls : list Instance;
  promises : list pending;
  unhandled : list string;
}.

Inductive page_outcome (A : Type) : Type :=
  | PReturned (a : A) (pg : Page)
  | PThrew (e : string) (pg : Page).
Arguments PReturned {A} a pg.
Arguments PThrew {A} e pg.

(** Statements that run in the page: they can reach every control. *)
Definition PageEff (A : Type) : Type := Page → page_outcome A.

#[global] Instance PageEff_ret : MRet PageEff := λ A a pg, PReturned a pg.

#[global] Instance PageEff_bind : MBind PageEff := λ A B k m pg,
  match m pg with
  | PReturned a pg' => k a pg'
  | PThrew e pg' => PThrew e pg'
  end.

Definition with_controls (f : list Instance → list Instance) (pg : Page)
  : Page :=
  {| controls := f (controls pg); promises := promises pg;
     unhandled := unhandled pg |}.

(** A statement on the state cell and the element of the control at
    position [i]. *)
Definition on_control {A} (i : nat) (m : Eff A) : PageEff A := λ pg,
  match controls pg !! i with
  | Some s =>
      match m s with
      | Returned a s' => PReturned a (with_controls (<[i := s']>) pg)
      | Threw e s' => PThrew e (with_controls (<[i := s']>) pg)
      end
  | None => PThrew "TypeError" pg
  end.

(** A promise an element has just returned joins the promises of the
    page, with no handler attached; the result is its position. *)
Definition track (p : promise) : PageEff nat := λ pg,
  PReturned (length (promises pg))
    {| controls := controls pg;
       promises := promises pg ++ [mkPending p [] false];
       unhandled := unhandled pg |}.

(** [promise.catch(h)], with [h] a closure of control [i]; no statement of
    the component does this. *)
Definition catch_at (p i : nat) (h : handler) : PageEff unit := λ pg,
  PReturned ()
    {| controls := controls pg;
       promises :=
         alter (λ e, mkPending (the_promise e) (catchers e ++ [(i, h)])
                       (settled e)) p (promises pg);
       unhandled := unhandled pg |}.

(** [handlePlayPause] of the control at position [i], as it runs in the
    page: [audioRef] and [setIsPlaying] are those of control [i], and the
    promise of [play()] is dropped with nothing attached to it. *)
Definition handlePlayPause_at (i : nat) (isPlaying : bool) : PageEff unit :=
  (if isPlaying then on_control i audio_pause
   else (p ← on_control i audio_play; _ ← track p; mret ())) ;;
  on_control i (setIsPlaying (negb isPlaying)) ;;
  on_control i (assign_onended (SetIsPlaying false)).

(** The handlers of a settling promise, run in the order attached. *)
Fixpoint run_catchers (hs : list (nat * handler)) : PageEff unit :=
  match hs with
  | [] => mret ()
  | (i, h) :: hs' => on_control i (call (Some h)) ;; run_catchers hs'
  end.

Definition mark_settled (p : nat) : PageEff unit := λ pg,
  PReturned ()
    {| controls := controls pg;
       promises :=
         alter (λ e, mkPending (the_promise e) (catchers e) true) p
           (promises pg);
       unhandled := unhandled pg |}.

(** The window learning of a rejection nobody handled. *)
Definition report_unhandled (reason : string) : PageEff unit := λ pg,
  PReturned ()
    {| controls := controls pg; promises := promises pg;
       unhandled := unhandled pg ++ [reason] |}.

(** What can happen in a page: an event of the control at position [i],
    or the backend settling the promise at position [p]. *)
Inductive page_event : Type :=
  | At (i : nat) (ev : event)
  | Settled (p : nat).

Definition page_on_event (pe : page_event) : PageEff unit := λ pg,
  match pe with
  | At i ev =>
      match controls pg !! i with
      | Some s =>
          match ev with
          | Click => handlePlayPause_at i (isPlaying s) pg
          | MediaEnded => on_control i (call (onended (audioRef s))) pg
          | MediaError => on_control i (call (onerror (audioRef s))) pg
          end
      | None => PReturned () pg
      end
  | Settled p =>
      match promises pg !! p with
      | Some (mkPending (Pending (Rejects reason)) hs false) =>
          (mark_settled p ;;
           match hs with
           | [] => report_unhandled reason
           | _ :: _ => run_catchers hs
           end) pg
      | Some (mkPending (Pending Fulfils) _ false) => mark_settled p pg
      | _ => PReturned () pg
      end
  end.

Definition page_of {A} (o : page_outcome A) : Page :=
  match o with
  | PReturned _ pg | PThrew _ pg => pg
  end.

Definition page_step (pe : page_event) (pg : Page) : Page :=
  page_of (page_on_event pe pg).

Definition page_run (pes : list page_event) (pg : Page) : Page :=
  fold_left (λ pg pe, page_step pe pg) pes pg.

(** The first render of a tree: one control per [AudioPlayer] element, no
    promise yet, nothing reported. *)
Definition mount (backend : string → bool) (tree : node) : Page :=
  {| controls := (λ p, mountPlayer backend p.1 p.2) <$> players tree;
     promises := []; unhandled := [] |}.

(** The promise a click leaves in the page: none when the control was
    playing, the one [play()] returned otherwise. *)
Definition click_promises (s : Instance) : list pending :=
  if isPlaying s then []
  else [mkPending
          (Pending (if loadable (audioRef s) then Fulfils
                    else Rejects "NotSupportedError")) [] false].

(** ** Reading a rendered tree *)

(** Of a tree a [TTSSection] returns: the title, the number in the
    "(N samples)" line, that line as text, and the children of the
    [TableBody]. *)
Definition section_title (tree : node) : option string :=
  textContent <$> at_path [0; 0] tree.

Definition section_count (tree : node) : option nat :=
  match at_path [0; 1; 1] tree with
  | Some (Num n) => Some n
  | _ => None
  end.

Definition section_count_line (tree : node) : option string :=
  textContent <$> at_path [0; 1] tree.

Definition section_rows (tree : node) : list node :=
  default [] (children_of <$> at_path [1; 0; 1] tree).

(** Of a tree a [ModelSection] returns: the children of [CardContent]. *)
Definition panel_sections (tree : node) : list node :=
  default [] (children_of <$> at_path [1] tree).

(** The children of the [i]-th [TableCell] of a rendered row. *)
Definition cell (i : nat) (row : node) : list node :=
  default [] (children_of <$> children_of row !! i).

(** The tree a row callback returns, and the row object it leaves. *)
Definition row_view (cb : nat → RowM node) (idx : nat) (row : TTSData) : node :=
  (cb idx row).1.

Definition row_after (cb : nat → RowM node) (idx : nat) (row : TTSData)
  : TTSData :=
  (cb idx row).2.

(** ** Sample rows *)

(** The rows of [experiment0_test], the second of them with its
    [generatedSpeech] left empty, and a row with no reference set at all. *)
Definition jinny : TTSData :=
  {| speakerId := "jinny";
     originalText := "คุณช่วยแนะนำร้านอาหารอร่อยๆ หน่อยได้ไหมคะ";
     originalSpeech := "./wav/experiment0/jinny/ref.wav";
     generatedSpeech := "./wav/experiment0/jinny/out1.wav";
     generateText := "ทดสอบการอ่านออกเสียงภาษาไทย";
     generatedSpeechNew := "./wav/experiment0/jinny/out2.wav" |}.

Definition ming : TTSData :=
  {| speakerId := "ming";
     originalText := "ผมประทับใจกับความเป็นมิตรของคนไทยมากครับ";
     originalSpeech := "./wav/experiment0/ming/ref.wav";
     generatedSpeech := "./wav/experiment0/ming/out1.wav";
     generateText := "ทดสอบการอ่านออกเสียงภาษาไทย";
     generatedSpeechNew := "./wav/experiment0/ming/out2.wav" |}.

Definition ming_pending : TTSData :=
  {| speakerId := "ming";
     originalText := "ผมประทับใจกับความเป็นมิตรของคนไทยมากครับ";
     originalSpeech := "./wav/experiment0/ming/ref.wav";
     generatedSpeech := EmptyString;
     generateText := "ทดสอบการอ่านออกเสียงภาษาไทย";
     generatedSpeechNew := "./wav/experiment0/ming/out2.wav" |}.

Definition experiment0_test : list TTSData := [jinny; ming].

Definition no_references : TTSData :=
  {| speakerId := "s1"; originalText := EmptyString;
     originalSpeech := EmptyString; generatedSpeech := EmptyString;
     generateText := EmptyString; generatedSpeechNew := EmptyString |}.

(** A backend for which every clip resolves, and one for which none does. *)
Definition all_clips : string → bool := λ _, true.
Definition no_clips : string → bool := λ _, false.

(** The control of the original recording of [jinny], as mounted and after
    one click; the same control when its clip cannot be played. *)
Definition idle_jinny : Instance :=
  mountPlayer all_clips "./wav/experiment0/jinny/ref.wav" (Some "Original").

Definition playing_jinny : Instance := step Click idle_jinny.

Definition broken_jinny : Instance :=
  mountPlayer no_clips "./wav/experiment0/jinny/ref.wav" (Some "Original").

(** The controls of the example of the specification: one panel with one
    train row and no test row. *)
Definition example_page (backend : string → bool) : Page :=
  mount backend (Part000.ModelSection "E" [jinny] []).1.

(** ** The page and its registry *)

(** The six arrays of [TTSPage] in [src/unnamed/part_000]; the first two
    are also the arrays of [src/src/App.tsx]. *)
Module Registry.
Definition experiment0_train : list TTSData :=
  [
    {| speakerId := "tsync2_0_728";
       originalText := "วัตถุระเบิดสารพิษและสารติดเชื้อวัตถุกัมมันตรังสีก๊าซ";
       originalSpeech := "./wav/experiment0/tsync2_0_728/ref.wav";
       generatedSpeech := "./wav/experiment0/tsync2_0_728/out1.wav";
       generateText := "ทดสอบการอ่านออกเสียงภาษาไทย";
       generatedSpeechNew := "./wav/experiment0/tsync2_0_728/out2.wav" |};
    {| speakerId := "tsync2_55_3643";
       originalText := "และทูลแบบติดตลกว่าเรือใครใครทำซึ่งพระบาทสมเด็จพระเจ้าอยู่หัวก็ทรงทำได้อย่างมีพรสวรรค์";
       originalSpeech := "./wav/experiment0/tsync2_55_3643/ref.wav";
       generatedSpeech := "./wav/experiment0/tsync2_55_3643/out1.wav";
       generateText := "ทดสอบการอ่านออกเสียงภาษาไทย";
       generatedSpeechNew := "./wav/experiment0/tsync2_55_3643/out2.wav" |}
  ].

Definition experiment0_test : list TTSData :=
  [
    {| speakerId := "jinny";
       originalText := "คุณช่วยแนะนำร้านอาหารอร่อยๆ หน่อยได้ไหมคะ";
       originalSpeech := "./wav/experiment0/jinny/ref.wav";
       generatedSpeech := "./wav/experiment0/jinny/out1.wav";
       generateText := "ทดสอบการอ่านออกเสียงภาษาไทย";
       generatedSpeechNew := "./wav/experiment0/jinny/out2.wav" |};
    {| speakerId := "ming";
       originalText := "ผมประทับใจกับความเป็นมิตรของคนไทยมากครับ";
       originalSpeech := "./wav/experiment0/ming/ref.wav";
       generatedSpeech := "./wav/experiment0/ming/out1.wav";
       generateText := "ทดสอบการอ่านออกเสียงภาษาไทย";
       generatedSpeechNew := "./wav/experiment0/ming/out2.wav" |}
  ].

Definition experiment1_train : list TTSData :=
  [
    {| speakerId := "cv030_066_mic1";
       originalText := "ตอนนี้เพื่อนไปเที่ยวโตเกียว";
       originalSpeech := "./wav/experiment1/cv030_066_mic1/ref.wav";
       generatedSpeech := "./wav/experiment1/cv030_066_mic1/out1.wav";
       generateText := "ทดสอบการอ่านออกเสียงภาษาไทย";
       generatedSpeechNew := "./wav/experiment1/cv030_066_mic1/out2.wav" |};
    {| speakerId := "cv112_112_mic1";
       originalText := "เครื่องเทศที่หายาก มาจากตะวันออกไกล";
       originalSpeech := "./wav/experiment1/cv112_112_mic1/ref.wav";
       generatedSpeech := "./wav/experiment1/cv112_112_mic1/out1.wav";
       generateText := "ทดสอบการอ่านออกเสียงภาษาไทย";
       generatedSpeechNew := "./wav/experiment1/cv112_112_mic1/out2.wav" |}
  ].

Definition experiment1_test : list TTSData :=
  [
    {| speakerId := "ekapol_cut";
       originalText := "แมวคือเท่าไหร่ เป็นหมาคือเท่าไหร่ เป็นหนูคือเท่าไหร่";
       originalSpeech := "./wav/experiment1/ekapol_cut/ref.wav";
       generatedSpeech := "./wav/experiment1/ekapol_cut/out1.wav";
       generateText := "ทดสอบการอ่านออกเสียงภาษาไทย";
       generatedSpeechNew := "./wav/experiment1/ekapol_cut/out2.wav" |};
    {| speakerId := "ming_long_voice_cut";
       originalText := "ถ้าเราต้องการประสบความสำเร็จ เราควรตั้งเป้าหมายและพยายามอย่างเต็มที่ เพื่อให้ไปถึง";
       originalSpeech := "./wav/experiment1/ming_long_voice_cut/ref.wav";
       generatedSpeech := "./wav/experiment1/ming_long_voice_cut/out1.wav";
       generateText := "ทดสอบการอ่านออกเสียงภาษาไทย";
       generatedSpeechNew := "./wav/experiment1/ming_long_voice_cut/out2.wav" |};
    {| speakerId := "Jinny-all-th";
       originalText := "คุณช่วยแนะนำร้านอาหารอร่อยๆ หน่อยได้ไหมคะ";
       originalSpeech := "./wav/experiment1/Jinny-all-th/ref.wav";
       generatedSpeech := "./wav/experiment1/Jinny-all-th/out1.wav";
       generateText := "ทดสอบการอ่านออกเสียงภาษาไทย";
       generatedSpeechNew := "./wav/experiment1/Jinny-all-th/out2.wav" |}
  ].

Definition experiment2_train : list TTSData :=
  [
    {| speakerId := "cv044";
       originalText := "กล้องซีซีทีวีปลอม ต่อสัมปทานบีทีเอสสามสิบปี ล้อมรั้วปิดสนามหลวง";
       originalSpeech := "./wav/experiment2/cv044/ref.wav";
       generatedSpeech := "./wav/experiment2/cv044/out1.wav";
       generateText := "การ์ตูนหุ่นยนต์กลายเป็นลักษณะเด่นของการ์ตูนญี่ปุ่นอย่างไรก็ตามไม่ใช่การ์ตูนญี่ปุ่นทุกเรื่องจะเป็นการ์ตูนหุ่นยนต์";
       generatedSpeechNew := "./wav/experiment2/cv044/out2.wav" |};
    {| speakerId := "cv062";
       originalText := "ฉันทำสิ่งนี้เพื่อป้องกันการขี่จักรยานและกระตุ้นให้เกิดการเคลื่อนไหวมากขึ้นผ่านพื้นที่ทางออก";
       originalSpeech := "./wav/experiment2/cv062/ref.wav";
       generatedSpeech := "./wav/experiment2/cv062/out1.wav";
       generateText := "นายกรัฐมนตรีขอเชิญชวนพุทธศาสนิกชนทุกคนร่วมงานสัปดาห์ส่งเสริมพระพุทธศาสนาเนื่องในเทศกาลวิสาขบูชา";
       generatedSpeechNew := "./wav/experiment2/cv062/out2.wav" |}
  ].

Definition experiment2_test : list TTSData :=
  [
    {| speakerId := "speaker-008";
       originalText := "แต่กาฬโรคในยุคมืดที่แพร่ไวดังไฟป่า น่าจะติดต่อโดยตรงจากคนหนึ่งสู่อีกคนหนึ่งมากกว่า";
       originalSpeech := "./wav/experiment2/speaker-008/ref.wav";
       generatedSpeech := "./wav/experiment2/speaker-008/out1.wav";
       generateText := "หนึ่งในสิ่งที่น่าประหลาดใจและน่าฉงน เกี่ยวกับกาฬโรคก็คือ ความเจ็บป่วยนี้ ไม่ได้เป็นเหตุการณ์ใหม่เลย แต่เป็นสิ่งที่กระทบต่อมนุษย์มาหลายศตวรรษ";
       generatedSpeechNew := "./wav/experiment2/speaker-008/out2.wav" |};
    {| speakerId := "speaker-009";
       originalText := "ไม่ใช่เครื่องจักรด้วยซ้ำ แต่เป็นสิ่งมีชีวิตขนาดเล็กที่แปลคลื่นสมองและสัญญาณประสาท ของสัตว์ที่มีความรู้สึกนึกคิดผ่านโทรจิต";
       originalSpeech := "./wav/experiment2/speaker-009/ref.wav";
       generatedSpeech := "./wav/experiment2/speaker-009/out1.wav";
       generateText := "โปรแกรมการแปลแบบอิงกฎใช้ฐานข้อมูลศัพท์ ซึ่งรวมคำทั้งหมดที่พบได้ในพจนานุกรม";
       generatedSpeechNew := "./wav/experiment2/speaker-009/out2.wav" |};
    {| speakerId := "speaker-010";
       originalText := "ที่เราสามารถบอกได้ก็คือ การแก่ชราเกิดขึ้นเมื่อกระบวนการตามธรรมชาติ และปฏิสัมพันธ์ต่อสิ่งแวดล้อม";
       originalSpeech := "./wav/experiment2/speaker-010/ref.wav";
       generatedSpeech := "./wav/experiment2/speaker-010/out1.wav";
       generateText := "Organelle ที่เรียกว่า Mitochondria มีแนวโน้มที่จะได้รับความเสียหายนี้เป็นพิเศษ";
       generatedSpeechNew := "./wav/experiment2/speaker-010/out2.wav" |};
    {| speakerId := "speaker-021";
       originalText := "เราทำเพื่องาน แต่ในเวลาเดียวกันเราก็ทำเพื่อร่างกายเราเหมือนกัน เพื่อสุขภาพของเรา โอเค ถ้าเกิดสมมุติว่า ผม อยากจะ";
       originalSpeech := "./wav/experiment2/speaker-021/ref.wav";
       generatedSpeech := "./wav/experiment2/speaker-021/out1.wav";
       generateText := "In World War Two, I play a spy. I go investigate, you know, about a house.";
       generatedSpeechNew := "./wav/experiment2/speaker-021/out2.wav" |};
    {| speakerId := "speaker-024";
       originalText := "Do I know these people? Like why do they know so much about me? Like how could they say such things about me even though they don't know me?";
       originalSpeech := "./wav/experiment2/speaker-024/ref.wav";
       generatedSpeech := "./wav/experiment2/speaker-024/out1.wav";
       generateText := "หนูคิดว่า เรียกแบบนั้นก็ได้นะคะเพราะว่าเหมือน เริ่มจะมารู้ตอนที่แบบ เวลามีเรียน elective ที่โรงเรียน";
       generatedSpeechNew := "./wav/experiment2/speaker-024/out2.wav" |}
  ].

End Registry.

(** What [TTSPage] returns around its panels; the commented-out panel
    evaluates to no child. *)
Definition page_shell (panels : list node) : node :=
  El "TooltipProvider" None None
    [El "div" None
       (Some "min-h-screen bg-gradient-to-b from-gray-50 to-white flex flex-col items-center")
       [El "div" None (Some "w-full max-w-7xl py-12")
          [ El "h1" None
              (Some "text-4xl font-bold text-gray-900 mb-8 text-center")
              [Text "TTS Experiment Results"];
            El "div" None
              (Some "space-y-8 flex flex-col px-2 items-center") panels ]]].

(** [TTSPage] of [src/unnamed/part_000]: three experiments. *)
Module Part000Page.
Definition TTSPage : node :=
  page_shell
    [ (Part000.ModelSection "KhongKhunTTS (YourTTS on TSync2 only)"
         Registry.experiment0_train Registry.experiment0_test).1;
      (Part000.ModelSection
         "KhongKhunTTS (YourTTS on TSync2 and CommonVoice)"
         Registry.experiment1_train Registry.experiment1_test).1;
      (Part000.ModelSection
         "KhongKhunTTS (YourTTS on LJSpeech + TSync2 and VCTK + CommonVoice + VTC)"
         Registry.experiment2_train Registry.experiment2_test).1 ].
End Part000Page.

(** [TTSPage] of [src/src/App.tsx]: the first experiment only. *)
Module AppPage.
Definition TTSPage : node :=
  page_shell
    [ (App.ModelSection "KhongKhunTTS (YourTTS on TSync2 only)"
         Registry.experiment0_train Registry.experiment0_test).1 ].
End AppPage.

(** The panels of a page, and the rows of the registry in page order. *)
Definition page_panels (tree : node) : list node :=
  default [] (children_of <$> at_path [0; 0; 1] tree).


Definition registry_rows : list TTSData :=
  Registry.experiment0_train ++ Registry.experiment0_test
  ++ Registry.experiment1_train ++ Registry.experiment1_test
  ++ Registry.experiment2_train ++ Registry.experiment2_test.

(** ** Reading rows, traces and request logs *)

(** The controls a row callback puts in a row, as props. *)
Definition App_row_players (row : TTSData) : list (string * option string) :=
  [ (originalSpeech row, Some "Original");
    (generatedSpeech row, Some "Generated");
    (generatedSpeechNew row, Some "New Generated") ].

Definition Part000_row_players (row : TTSData)
  : list (string * option string) :=
  [(originalSpeech row, Some "Original")]
  ++ (if truthy (generatedSpeech row)
      then [(generatedSpeech row, Some "Generated")] else [])
  ++ [(generatedSpeechNew row, Some "New Generated")].

(** The [TableHead] cells of the header row of a section. *)
Definition section_header_cells (tree : node) : list node :=
  default [] (children_of <$> at_path [1; 0; 0; 0] tree).

#[global] Instance event_eq_dec : EqDecision event.
Proof. solve_decision. Defined.

#[global] Instance request_eq_dec : EqDecision request.
Proof. solve_decision. Defined.

(** The number of clicks in a trace. *)
Definition clicks (evs : list event) : nat :=
  length (filter (λ ev, ev = Click) evs).

(** The request the [k]-th of a run of clicks issues on a fresh control. *)
Definition nth_toggle_request (k : nat) : request :=
  if Nat.even k then PlayRequest else PauseRequest.

(** ** Rows and sections *)

Lemma append_empty_r (s : string) : s +:+ EmptyString = s.
Proof.
  induction s as [|c s IH]; [done|].
  change (String c (s +:+ EmptyString) = String c s). by rewrite IH.
Qed.

Section array_map_facts.
Context (cb : nat → RowM node).

Lemma array_map_nodes idx data :
  (array_map cb idx data).1 = imap (λ i, row_view cb (idx + i)) data.
Proof.
  revert idx. induction data as [|row rest IH]; intros idx; [done|].
  cbn [array_map imap]. rewrite Nat.add_0_r. unfold row_view at 1.
  destruct (cb idx row) as [n row'].
  specialize (IH (S idx)).
  destruct (array_map cb (S idx) rest) as [ns rest'].
  cbn [fst] in *. rewrite IH. f_equal.
  apply imap_ext. intros i x _. cbn. by rewrite Nat.add_succ_r.
Qed.

Lemma array_map_objects idx data :
  (array_map cb idx data).2 = imap (λ i, row_after cb (idx + i)) data.
Proof.
  revert idx. induction data as [|row rest IH]; intros idx; [done|].
  cbn [array_map imap]. rewrite Nat.add_0_r. unfold row_after at 1.
  destruct (cb idx row) as [n row'].
  specialize (IH (S idx)).
  destruct (array_map cb (S idx) rest) as [ns rest'].
  cbn [snd] in *. rewrite IH. f_equal.
  apply imap_ext. intros i x _. cbn. by rewrite Nat.add_succ_r.
Qed.

Lemma section_rows_of title data :
  section_rows (TTSSection_of cb title data).1 = imap (row_view cb) data.
Proof.
  unfold TTSSection_of. pose proof (array_map_nodes 0 data) as H.
  destruct (array_map cb 0 data) as [rows data']. cbn in *. by subst.
Qed.

Lemma section_count_of title data :
  section_count (TTSSection_of cb title data).1 = Some (length data).
Proof.
  unfold TTSSection_of. by destruct (array_map cb 0 data).
Qed.

Lemma section_count_line_of title data :
  section_count_line (TTSSection_of cb title data).1
  = Some ("(" +:+ string_of_nat (length data) +:+ " samples)").
Proof.
  unfold TTSSection_of. by destruct (array_map cb 0 data).
Qed.

Lemma section_title_of title data :
  section_title (TTSSection_of cb title data).1 = Some title.
Proof.
  unfold TTSSection_of. destruct (array_map cb 0 data).
  unfold section_title. cbn. by rewrite append_empty_r.
Qed.

Lemma section_objects_of title data :
  (TTSSection_of cb title data).2 = imap (row_after cb) data.
Proof.
  unfold TTSSection_of. pose proof (array_map_objects 0 data) as H.
  destruct (array_map cb 0 data) as [rows data']. cbn in *. by subst.
Qed.

Lemma panel_sections_of title trainData testData :
  panel_sections
    (ModelSection_of (TTSSection_of cb) title trainData testData).1
  = [ (TTSSection_of cb "Train (seen data)" trainData).1;
      (TTSSection_of cb "Test (unseen data)" testData).1 ].
Proof.
  unfold ModelSection_of.
  destruct (TTSSection_of cb "Train (seen data)" trainData).
  by destruct (TTSSection_of cb "Test (unseen data)" testData).
Qed.
End array_map_facts.

(** What the row callback of each revision returns, in closed form. *)
Lemma Part000_row_view idx row :
  row_view Part000.row_cb idx row
  = table_row idx
      (row_cells (speakerId row) (originalText row) (originalSpeech row)
         [ if truthy (generatedSpeech row)
           then AudioPlayerEl (generatedSpeech row) (Some "Generated")
           else Text (generatedSpeech row) ]
         (generateText row) (generatedSpeechNew row)).
Proof.
  unfold row_view, Part000.row_cb, Part000.generated_cell, row_bind, read.
  by destruct (truthy (generatedSpeech row)).
Qed.

Lemma Part000_row_after idx row : row_after Part000.row_cb idx row = row.
Proof.
  unfold row_after, Part000.row_cb, Part000.generated_cell, row_bind, read.
  by destruct (truthy (generatedSpeech row)).
Qed.

Lemma App_row_view idx row :
  row_view App.row_cb idx row
  = table_row idx
      (row_cells (speakerId row) (originalText row) (originalSpeech row)
         [AudioPlayerEl (generatedSpeech row) (Some "Generated")]
         (generateText row) (generatedSpeechNew row)).
Proof. reflexivity. Qed.

Lemma App_row_after idx row : row_after App.row_cb idx row = row.
Proof. reflexivity. Qed.

Lemma imap_id_on {A} (f : nat → A → A) (l : list A) :
  (∀ i x, f i x = x) → imap f l = l.
Proof.
  intros Hf. revert f Hf. induction l as [|x l IH]; intros f Hf; [done|].
  cbn. rewrite Hf. f_equal. apply IH. intros i y. apply Hf.
Qed.


(** C6: a section rendered from [N] rows shows the count [N] (the line
    reads "(N samples)"), its table body has exactly [N] rows, and the
    [i]-th of them is the rendering of the [i]-th input row: it carries key
    [i] and shows that row's [speakerId]. *)
Theorem section_row_count_fidelity (title : string) (data : list TTSData) :
  let tree := (Part000.TTSSection title data).1 in
  section_count tree = Some (length data) ∧
  section_count_line tree
    = Some ("(" +:+ string_of_nat (length data) +:+ " samples)") ∧
  length (section_rows tree) = length data ∧
  (∀ i, section_rows tree !! i = row_view Part000.row_cb i <$> data !! i) ∧
  (∀ i, (λ tr, (key_of tr, cell 0 tr)) <$> section_rows tree !! i
        = (λ row, (Some i, [Text (speakerId row)])) <$> data !! i).
Proof.
  cbn zeta. unfold Part000.TTSSection.
  rewrite section_count_of, section_count_line_of, section_rows_of.
  rewrite length_imap. repeat split.
  - intros i. apply list_lookup_imap.
  - intros i. rewrite list_lookup_imap.
    destruct (data !! i) as [row|]; [|done].
    cbn. by rewrite Part000_row_view.
Qed.

(** C7: whatever the title and the two sequences, the panel holds exactly
    two sections, the train section first and the test section second, each
    with the count and the rows of its own sequence; on an empty sequence
    the section is still there, with count 0 and no rows. *)
Theorem panel_renders_both_sections (title : string)
    (trainData testData : list TTSData) :
  let tree := (Part000.ModelSection title trainData testData).1 in
  let train := (Part000.TTSSection "Train (seen data)" trainData).1 in
  let test := (Part000.TTSSection "Test (unseen data)" testData).1 in
  panel_sections tree = [train; test] ∧
  section_title train = Some "Train (seen data)" ∧
  section_count train = Some (length trainData) ∧
  length (section_rows train) = length trainData ∧
  section_title test = Some "Test (unseen data)" ∧
  section_count test = Some (length testData) ∧
  length (section_rows test) = length testData ∧
  section_count (Part000.TTSSection "Train (seen data)" []).1 = Some 0 ∧
  section_rows (Part000.TTSSection "Train (seen data)" []).1 = [] ∧
  section_count (Part000.TTSSection "Test (unseen data)" []).1 = Some 0 ∧
  section_rows (Part000.TTSSection "Test (unseen data)" []).1 = [].
Proof.
  cbn zeta. unfold Part000.ModelSection, Part000.TTSSection.
  rewrite panel_sections_of, !section_title_of, !section_count_of,
    !section_rows_of, !length_imap.
  by repeat split.
Qed.

(** C8: the row callback leaves the row object as it found it, and a second
    rendering of the same object, after the first, returns the same tree;
    the tree holds the props of the controls only, never their state.  The
    same holds for a whole section. *)
Theorem row_rendering_pure (idx : nat) (row : TTSData)
    (title : string) (data : list TTSData) :
  let first := Part000.row_cb idx row in
  let second := Part000.row_cb idx first.2 in
  first.2 = row ∧ second.2 = row ∧ second.1 = first.1 ∧
  (Part000.TTSSection title data).2 = data ∧
  (Part000.TTSSection title (Part000.TTSSection title data).2).1
    = (Part000.TTSSection title data).1.
Proof.
  cbn zeta.
  pose proof (Part000_row_after idx row) as Hrow. unfold row_after in Hrow.
  assert ((Part000.TTSSection title data).2 = data) as Hdata.
  { unfold Part000.TTSSection. rewrite section_objects_of.
    apply imap_id_on, Part000_row_after. }
  by rewrite !Hrow, !Hdata.
Qed.

(** C10: every rendered row has one control bound to [originalSpeech] in
    its third cell and one bound to [generatedSpeechNew] in its sixth,
    whatever those strings are; the fourth cell has a control exactly when
    [generatedSpeech] is a non-empty string; the other cells have none. *)
Theorem row_fixed_controls (idx : nat) (row : TTSData) :
  let tr := row_view Part000.row_cb idx row in
  let generated :=
    if truthy (generatedSpeech row)
    then [(generatedSpeech row, Some "Generated")] else [] in
  players_of (cell 2 tr) = [(originalSpeech row, Some "Original")] ∧
  players_of (cell 5 tr) = [(generatedSpeechNew row, Some "New Generated")] ∧
  players_of (cell 3 tr) = generated ∧
  players_of (cell 0 tr) = [] ∧ players_of (cell 1 tr) = [] ∧
  players_of (cell 4 tr) = [] ∧
  players tr
    = [(originalSpeech row, Some "Original")] ++ generated
      ++ [(generatedSpeechNew row, Some "New Generated")] ∧
  players (row_view Part000.row_cb idx no_references)
    = [(EmptyString, Some "Original"); (EmptyString, Some "New Generated")].
Proof.
  cbn zeta. rewrite Part000_row_view.
  by destruct (truthy (generatedSpeech row)).
Qed.

(** ** One control *)

(** The state after a click, in closed form. *)
Lemma step_Click s :
  step Click s
  = {| label := label s;
       isPlaying := negb (isPlaying s);
       audioRef :=
         {| audio_src := audio_src (audioRef s);
            loadable := loadable (audioRef s);
            onended := Some (SetIsPlaying false);
            onerror := onerror (audioRef s);
            requests :=
              requests (audioRef s)
              ++ [if isPlaying s then PauseRequest else PlayRequest] |} |}.
Proof. destruct s as [lbl [] a]; reflexivity. Qed.

Lemma on_event_Click s : on_event Click s = Returned () (step Click s).
Proof. destruct s as [lbl [] a]; reflexivity. Qed.

Lemma on_event_returns ev s : on_event ev s = Returned () (step ev s).
Proof.
  destruct ev; [apply on_event_Click| |];
    destruct s as [lbl p [src ld [[b]|] [[b']|] rq]]; reflexivity.
Qed.

Lemma control_inv_mount backend src lbl :
  control_inv (mountPlayer backend src lbl).
Proof. split; cbn; auto; discriminate. Qed.

Lemma control_inv_step ev s : control_inv s → control_inv (step ev s).
Proof.
  intros [Herr Hend Hplay]. destruct ev.
  - rewrite step_Click. split; cbn; auto.
  - destruct s as [lbl p [src ld oe oer rq]]; cbn in *.
    destruct Hend as [->| ->]; split; cbn; auto.
  - destruct s as [lbl p [src ld oe oer rq]]; cbn in *. subst oer.
    split; cbn; auto.
Qed.

Lemma Reachable_inv s : Reachable s → control_inv s.
Proof.
  induction 1 as [backend src lbl|s ev _ IH];
    [apply control_inv_mount | by apply control_inv_step].
Qed.

Lemma Reachable_run evs s : Reachable s → Reachable (run evs s).
Proof.
  revert s. induction evs as [|ev evs IH]; intros s Hs; [done|].
  cbn. apply IH. by constructor.
Qed.

(** A control starts in Idle, with nothing requested of its element. *)
Lemma mountPlayer_idle backend src lbl :
  isPlaying (mountPlayer backend src lbl) = false
  ∧ requests (audioRef (mountPlayer backend src lbl)) = []
  ∧ audio_src (audioRef (mountPlayer backend src lbl)) = src.
Proof. done. Qed.

(** The notifications of the backend issue no request on the element. *)
Lemma step_media_requests ev s :
  ev ≠ Click → requests (audioRef (step ev s)) = requests (audioRef s).
Proof.
  destruct ev; [done| |]; intros _;
    destruct s as [lbl p [src ld [[b]|] [[b']|] rq]]; reflexivity.
Qed.

(** C3: from Idle, one toggle returns with the control in Playing and a
    play request issued on its element; a second toggle returns with the
    control back in Idle and a pause request issued. *)
Theorem toggle_symmetry (s : Instance) :
  isPlaying s = false →
  let s1 := step Click s in
  let s2 := step Click s1 in
  on_event Click s = Returned () s1 ∧
  isPlaying s1 = true ∧
  requests (audioRef s1) = requests (audioRef s) ++ [PlayRequest] ∧
  on_event Click s1 = Returned () s2 ∧
  isPlaying s2 = false ∧
  requests (audioRef s2) = requests (audioRef s1) ++ [PauseRequest].
Proof.
  intros Hidle. cbn zeta. rewrite !on_event_Click, !step_Click.
  cbn. by rewrite Hidle.
Qed.

Lemma toggle_symmetry_witness :
  isPlaying idle_jinny = false ∧
  isPlaying (step Click idle_jinny) = true ∧
  requests (audioRef (step Click idle_jinny)) = [PlayRequest] ∧
  isPlaying (step Click (step Click idle_jinny)) = false ∧
  requests (audioRef (step Click (step Click idle_jinny)))
    = [PlayRequest; PauseRequest].
Proof.
  pose proof (toggle_symmetry idle_jinny eq_refl)
    as (_ & H1 & H2 & _ & H3 & H4).
  split; [reflexivity|]. split; [exact H1|]. split; [exact H2|].
  split; [exact H3|exact H4].
Defined.

(** C4: in every state a control can reach in which it shows Playing, the
    end-of-stream notification alone puts it in Idle; no click is involved
    and no request is issued on the element. *)
Theorem end_of_stream_reset (s : Instance) :
  Reachable s → isPlaying s = true →
  on_event MediaEnded s = Returned () (step MediaEnded s) ∧
  isPlaying (step MediaEnded s) = false ∧
  requests (audioRef (step MediaEnded s)) = requests (audioRef s).
Proof.
  intros Hs Hplaying. apply Reachable_inv in Hs as [_ _ Hend].
  specialize (Hend Hplaying).
  destruct s as [lbl p [src ld oe oer rq]]; cbn in *. by subst.
Qed.

Lemma end_of_stream_reset_witness :
  Reachable playing_jinny ∧ isPlaying playing_jinny = true ∧
  isPlaying (step MediaEnded playing_jinny) = false.
Proof.
  assert (Reachable playing_jinny) as Hs.
  { apply Reachable_step, Reachable_mount. }
  split; [exact Hs|]. split; [reflexivity|].
  exact (proj1 (proj2 (end_of_stream_reset playing_jinny Hs eq_refl))).
Defined.

(** C9: the toggle returns normally in every state of the control and
    for either value of the [isPlaying] it was built with, whether or not
    the clip can be played; so does the click that invokes it. *)
Theorem toggle_never_throws (closure : bool) (s : Instance) :
  (∃ s', handlePlayPause closure s = Returned () s') ∧
  (∃ s', on_event Click s = Returned () s').
Proof.
  split; [|rewrite on_event_Click; eauto].
  destruct closure; eexists; reflexivity.
Qed.

(** ** A clip that cannot be played *)

(** With no [onerror] handler installed, the error notification of the
    backend changes nothing. *)
Lemma step_MediaError s : Reachable s → step MediaError s = s.
Proof.
  intros Hs. apply Reachable_inv in Hs as [Herr _ _].
  destruct s as [lbl p [src ld oe oer rq]]; cbn in *. by subst.
Qed.

(** ** Several controls in one page *)

Lemma on_control_at {A} (i : nat) (m : Eff A) (pg : Page) (s : Instance) :
  controls pg !! i = Some s →
  on_control i m pg
  = match m s with
    | Returned a s' => PReturned a (with_controls (<[i := s']>) pg)
    | Threw e s' => PThrew e (with_controls (<[i := s']>) pg)
    end.
Proof. intros Hi. unfold on_control. by rewrite Hi. Qed.

(** A click on the control at position [i], in closed form: the handler
    returns, the control at [i] moves as [step Click] says, the promise of
    [play()] is left with no handler attached, and nothing is reported. *)
Lemma page_click (pg : Page) (i : nat) (s : Instance) :
  controls pg !! i = Some s →
  page_on_event (At i Click) pg
  = PReturned ()
      {| controls := <[i := step Click s]> (controls pg);
         promises := promises pg ++ click_promises s;
         unhandled := unhandled pg |}.
Proof.
  intros Hi. unfold page_on_event. rewrite Hi.
  assert (i < length (controls pg)) as Hlt by by eapply lookup_lt_Some.
  unfold handlePlayPause_at, click_promises, mbind, PageEff_bind, track.
  rewrite step_Click.
  destruct (isPlaying s) eqn:Hp.
  - rewrite (on_control_at i _ pg s Hi). cbn.
    unfold on_control. cbn.
    rewrite !list_lookup_insert_eq by (by rewrite ?length_insert). cbn.
    rewrite !list_lookup_insert_eq by (by rewrite ?length_insert). cbn.
    unfold with_controls, with_audio. cbn.
    by rewrite !list_insert_insert_eq, app_nil_r.
  - rewrite (on_control_at i _ pg s Hi). cbn.
    unfold on_control. cbn.
    rewrite !list_lookup_insert_eq by (by rewrite ?length_insert). cbn.
    rewrite !list_lookup_insert_eq by (by rewrite ?length_insert). cbn.
    unfold with_controls, with_audio. cbn.
    by rewrite !list_insert_insert_eq.
Qed.

(** A notification of the backend for the control at position [i]. *)
Lemma page_notification (pg : Page) (i : nat) (ev : event) (s : Instance) :
  ev ≠ Click → controls pg !! i = Some s →
  page_on_event (At i ev) pg
  = PReturned ()
      {| controls := <[i := step ev s]> (controls pg);
         promises := promises pg;
         unhandled := unhandled pg |}.
Proof.
  intros Hev Hi. unfold page_on_event. rewrite Hi.
  destruct ev; [done| |];
    rewrite (on_control_at i _ pg s Hi); unfold step;
    rewrite on_event_returns; unfold on_event;
    destruct s as [lbl p [src ld [[b]|] [[b']|] rq]]; reflexivity.
Qed.

(** The backend rejecting a promise nobody attached a handler to. *)
Lemma page_rejection (pg : Page) (p : nat) (reason : string) :
  promises pg !! p = Some (mkPending (Pending (Rejects reason)) [] false) →
  page_on_event (Settled p) pg
  = PReturned ()
      {| controls := controls pg;
         promises :=
           alter (λ e, mkPending (the_promise e) (catchers e) true) p
             (promises pg);
         unhandled := unhandled pg ++ [reason] |}.
Proof. intros Hp. unfold page_on_event. by rewrite Hp. Qed.

(** C5: in a page, a toggle on control [A] changes the state of [A] only:
    the handler returns having moved [A] as one toggle does, and any other
    control [B] of the page is left exactly as it was, whatever clips the
    two are bound to. *)
Theorem toggle_independence (pg : Page) (i j : nat) (A B : Instance) :
  i ≠ j → controls pg !! i = Some A → controls pg !! j = Some B →
  page_on_event (At i Click) pg = PReturned () (page_step (At i Click) pg) ∧
  controls (page_step (At i Click) pg) !! i = Some (step Click A) ∧
  controls (page_step (At i Click) pg) !! j = Some B.
Proof.
  intros Hij HA HB. unfold page_step. rewrite (page_click pg i A HA).
  cbn. split; [done|]. split.
  - apply list_lookup_insert_eq. by eapply lookup_lt_Some.
  - by rewrite list_lookup_insert_ne.
Qed.

Lemma toggle_independence_witness :
  let pg := page_step (At 0 Click) (example_page all_clips) in
  controls pg !! 0 = Some playing_jinny ∧
  controls (page_step (At 1 Click) pg) !! 0 = Some playing_jinny ∧
  isPlaying <$> controls (page_step (At 1 Click) pg) !! 1 = Some true.
Proof.
  cbn zeta.
  destruct (toggle_independence
    (page_step (At 0 Click) (example_page all_clips)) 1 0
    (mountPlayer all_clips "./wav/experiment0/jinny/out1.wav"
       (Some "Generated"))
    playing_jinny)
    as (_ & HA & HB); [discriminate|reflexivity|reflexivity|].
  split; [reflexivity|]. split; [exact HB|]. by rewrite HA.
Defined.

(** ** A clip that cannot be played, in the page *)

(** C2, as stated, fails: the clip of the first control of the page cannot
    be played.  The toggle puts the control in Playing; the backend then
    reports the error and rejects the promise [play()] returned, and the
    control is still in Playing, while the window has been told of a
    rejection nobody handled. *)
Lemma broken_clip_does_not_revert_to_idle :
  let pg := example_page no_clips in
  let pg' := page_run [At 0 Click; At 0 MediaError; Settled 0] pg in
  controls pg !! 0 = Some broken_jinny ∧
  isPlaying broken_jinny = false ∧
  loadable (audioRef broken_jinny) = false ∧
  isPlaying <$> controls (page_step (At 0 Click) pg) !! 0 ≠ Some false ∧
  isPlaying <$> controls pg' !! 0 ≠ Some false ∧
  unhandled pg' ≠ [].
Proof. cbn zeta. repeat split; discriminate. Qed.

(** C2, amended: when the clip of a control in Idle cannot be played, the
    toggle returns normally and puts that control in Playing, and there it
    stays when the backend reports the error and rejects the promise
    [play()] returned, in either order; no other control of the page
    changes; the rejection, which no handler takes, reaches the window as an
    unhandled rejection. *)
Theorem failed_clip_stays_playing (pg : Page) (i : nat) (s : Instance) :
  controls pg !! i = Some s → Reachable s →
  isPlaying s = false → loadable (audioRef s) = false →
  let p := length (promises pg) in
  let pg' := page_run [At i Click; At i MediaError; Settled p] pg in
  page_on_event (At i Click) pg = PReturned () (page_step (At i Click) pg) ∧
  controls pg' !! i = Some (step Click s) ∧
  isPlaying (step Click s) = true ∧
  (∀ j, j ≠ i → controls pg' !! j = controls pg !! j) ∧
  unhandled pg' = unhandled pg ++ ["NotSupportedError"] ∧
  page_run [At i Click; Settled p; At i MediaError] pg = pg'.
Proof.
  intros Hi Hs Hidle Hbroken. cbn zeta.
  assert (i < length (controls pg)) as Hlt by by eapply lookup_lt_Some.
  assert (step MediaError (step Click s) = step Click s) as Herr.
  { apply step_MediaError. by constructor. }
  set (rejected := mkPending (Pending (Rejects "NotSupportedError")) [] false).
  set (pg1 := {| controls := <[i:=step Click s]> (controls pg);
                 promises := promises pg ++ [rejected];
                 unhandled := unhandled pg |}).
  set (pg2 := {| controls := controls pg1;
                 promises :=
                   alter (λ e, mkPending (the_promise e) (catchers e) true)
                     (length (promises pg)) (promises pg1);
                 unhandled := unhandled pg ++ ["NotSupportedError"] |}).
  assert (page_on_event (At i Click) pg = PReturned () pg1) as Hclick.
  { rewrite (page_click pg i s Hi). unfold click_promises.
    by rewrite Hidle, Hbroken. }
  assert (page_step (At i Click) pg = pg1) as H1.
  { unfold page_step. by rewrite Hclick. }
  assert (page_step (At i MediaError) pg1 = pg1) as H2.
  { unfold page_step.
    rewrite (page_notification pg1 i MediaError (step Click s));
      [|done|by apply list_lookup_insert_eq].
    cbn. by rewrite Herr, list_insert_insert_eq. }
  assert (page_step (Settled (length (promises pg))) pg1 = pg2) as H3.
  { unfold page_step.
    rewrite (page_rejection pg1 _ "NotSupportedError"); [done|].
    cbn. rewrite lookup_app_r by lia. by rewrite Nat.sub_diag. }
  assert (page_step (At i MediaError) pg2 = pg2) as H4.
  { unfold page_step.
    rewrite (page_notification pg2 i MediaError (step Click s));
      [|done|by apply list_lookup_insert_eq].
    cbn. by rewrite Herr, list_insert_insert_eq. }
  unfold page_run. cbn [fold_left]. rewrite !H1, H2, !H3, H4, Hclick.
  split; [done|]. split; [by apply list_lookup_insert_eq|].
  split; [rewrite step_Click; cbn; by rewrite Hidle|].
  split; [|done].
  intros j Hj. cbn. by rewrite list_lookup_insert_ne.
Qed.

Lemma failed_clip_stays_playing_witness :
  let pg := example_page no_clips in
  let pg' := page_run [At 0 Click; At 0 MediaError; Settled 0] pg in
  controls pg !! 0 = Some broken_jinny ∧ Reachable broken_jinny ∧
  isPlaying broken_jinny = false ∧ loadable (audioRef broken_jinny) = false ∧
  controls pg' !! 0 = Some (step Click broken_jinny) ∧
  isPlaying (step Click broken_jinny) = true ∧
  (∀ j, j ≠ 0 → controls pg' !! j = controls pg !! j) ∧
  unhandled pg' = ["NotSupportedError"].
Proof.
  cbn zeta.
  assert (Reachable broken_jinny) as Hs by apply Reachable_mount.
  destruct (failed_clip_stays_playing (example_page no_clips) 0 broken_jinny
              eq_refl Hs eq_refl eq_refl) as (_ & H1 & H2 & H3 & H4 & _).
  split; [reflexivity|]. split; [exact Hs|]. split; [reflexivity|].
  split; [reflexivity|]. split; [exact H1|]. split; [exact H2|].
  split; [exact H3|exact H4].
Defined.

(** ** The example of the specification *)

Example count_line_of_twelve : string_of_nat 12 = "12".
Proof. reflexivity. Qed.

(** One panel "E" with one train row and no test row: the train section
    reads "(1 samples)" and its row has three controls, the test section
    reads "(0 samples)" and has no row. *)
Example example_panel :
  let tree := (Part000.ModelSection "E" [jinny] []).1 in
  (section_count_line <$> panel_sections tree)
    = [Some "(1 samples)"; Some "(0 samples)"] ∧
  (length ∘ section_rows <$> panel_sections tree) = [1; 0] ∧
  players tree
    = [ ("./wav/experiment0/jinny/ref.wav", Some "Original");
        ("./wav/experiment0/jinny/out1.wav", Some "Generated");
        ("./wav/experiment0/jinny/out2.wav", Some "New Generated") ].
Proof. by repeat split. Qed.

(** A row of [part_000] whose generated clip is not there yet: two
    controls, and an empty cell between them. *)
Example example_pending_row :
  players (row_view Part000.row_cb 1 ming_pending)
  = [ ("./wav/experiment0/ming/ref.wav", Some "Original");
      ("./wav/experiment0/ming/out2.wav", Some "New Generated") ] ∧
  textContent <$> cell 3 (row_view Part000.row_cb 1 ming_pending)
  = [EmptyString].
Proof. by split. Qed.

(** The test section of the first experiment. *)
Example example_experiment0_test :
  let tree := (Part000.TTSSection "Test (unseen data)" experiment0_test).1 in
  section_count_line tree = Some "(2 samples)" ∧
  (λ tr, (key_of tr, cell 0 tr)) <$> section_rows tree
    = [(Some 0, [Text "jinny"]); (Some 1, [Text "ming"])].
Proof. by split. Qed.

(** The button of a control shows the pause icon exactly when the control
    is in Playing. *)
Lemma AudioPlayer_view_icon s :
  at_path [0; 0] (AudioPlayer_view s) ≫= tag_of
  = Some (if isPlaying s then "Pause" else "Play").
Proof. unfold AudioPlayer_view. by destruct (isPlaying s). Qed.

(** Toggling the first control and then the second leaves the first in
    Playing. *)
Example example_two_toggles :
  isPlaying
    <$> controls (page_run [At 0 Click; At 1 Click] (example_page all_clips))
  = [true; true; false].
Proof. reflexivity. Qed.

(** The two revisions agree on the count and on the number of rows. *)
Lemma App_section_counts title data :
  section_count (App.TTSSection title data).1 = Some (length data) ∧
  length (section_rows (App.TTSSection title data).1) = length data.
Proof.
  unfold App.TTSSection.
  by rewrite section_count_of, section_rows_of, length_imap.
Qed.

(** ** Traces of one control *)

Lemma step_MediaEnded s :
  step MediaEnded s
  = {| label := label s;
       isPlaying :=
         match onended (audioRef s) with
         | Some (SetIsPlaying b) => b
         | None => isPlaying s
         end;
       audioRef :=
         {| audio_src := audio_src (audioRef s);
            loadable := loadable (audioRef s);
            onended := onended (audioRef s);
            onerror := onerror (audioRef s);
            requests := requests (audioRef s) |} |}.
Proof. destruct s as [lbl p [src ld [[b]|] oer rq]]; reflexivity. Qed.

Lemma run_cons ev evs s : run (ev :: evs) s = run evs (step ev s).
Proof. reflexivity. Qed.

Lemma run_snoc evs ev s : run (evs ++ [ev]) s = step ev (run evs s).
Proof. unfold run. by rewrite fold_left_app. Qed.

Lemma clicks_snoc evs ev :
  clicks (evs ++ [ev])
  = clicks evs + match ev with Click => 1 | _ => 0 end.
Proof.
  unfold clicks. rewrite filter_app, length_app. by destruct ev.
Qed.

Lemma Reachable_trace evs backend src lbl :
  Reachable (run evs (mountPlayer backend src lbl)).
Proof. apply Reachable_run, Reachable_mount. Qed.

(** X1: no event rebinds a control: its label, the clip of its element and
    what the backend can do with that clip stay as they were at mount. *)
Theorem run_keeps_binding (evs : list event) (backend : string → bool)
    (src : string) (lbl : option string) :
  let s := run evs (mountPlayer backend src lbl) in
  label s = lbl ∧ audio_src (audioRef s) = src ∧
  loadable (audioRef s) = backend src.
Proof.
  cbn zeta. induction evs as [|ev evs IH] using rev_ind; [done|].
  rewrite run_snoc. destruct IH as (Hl & Hs & Hb).
  destruct ev.
  - rewrite step_Click. by cbn.
  - rewrite step_MediaEnded. by cbn.
  - rewrite step_MediaError; [done|apply Reachable_trace].
Qed.

(** X2: every click issues exactly one request on the element and the
    notifications of the backend issue none: after any trace the log holds
    as many requests as the trace has clicks. *)
Theorem requests_count_clicks (evs : list event)
    (backend : string → bool) (src : string) (lbl : option string) :
  length (requests (audioRef (run evs (mountPlayer backend src lbl))))
  = clicks evs.
Proof.
  induction evs as [|ev evs IH] using rev_ind; [done|].
  rewrite run_snoc, clicks_snoc, <- IH.
  destruct ev.
  - rewrite step_Click. cbn. by rewrite length_app.
  - rewrite step_MediaEnded. cbn. lia.
  - rewrite step_MediaError; [lia|apply Reachable_trace].
Qed.

(** X3: [n] clicks in a row on a fresh control: it shows Playing exactly when
    [n] is odd, and the requests alternate play, pause, play, ... *)
Theorem clicks_alternate (n : nat) (backend : string → bool)
    (src : string) (lbl : option string) :
  let s := run (replicate n Click) (mountPlayer backend src lbl) in
  isPlaying s = Nat.odd n ∧
  requests (audioRef s) = nth_toggle_request <$> seq 0 n.
Proof.
  cbn zeta. induction n as [|n [IHp IHr]]; [done|].
  replace (replicate (S n) Click) with (replicate n Click ++ [Click])
    by (by rewrite <- replicate_cons_app).
  rewrite run_snoc, step_Click. cbn [isPlaying audioRef requests].
  rewrite IHp, IHr, seq_S, fmap_app, Nat.odd_succ. cbn.
  unfold nth_toggle_request, Nat.odd. split; [|by destruct (Nat.even n)].
  by destruct (Nat.even n).
Qed.

(** X4: before its first click a control has no [onended] handler: whatever
    the backend notifies, the control stays exactly as it was mounted. *)
Theorem notifications_before_first_click (evs : list event)
    (backend : string → bool) (src : string) (lbl : option string) :
  clicks evs = 0 →
  run evs (mountPlayer backend src lbl) = mountPlayer backend src lbl.
Proof.
  induction evs as [|ev evs IH] using rev_ind; [done|].
  rewrite clicks_snoc, run_snoc.
  intros Hnone. rewrite IH by lia.
  destruct ev; [lia|done|done].
Qed.

Lemma notifications_before_first_click_witness :
  clicks [MediaEnded; MediaError; MediaEnded] = 0 ∧
  run [MediaEnded; MediaError; MediaEnded] idle_jinny = idle_jinny.
Proof.
  split; [reflexivity|].
  exact (notifications_before_first_click [MediaEnded; MediaError; MediaEnded]
           all_clips "./wav/experiment0/jinny/ref.wav" (Some "Original")
           eq_refl).
Defined.

(** X5: the first click installs the reset handler and nothing removes or
    replaces it: after any trace with a click in it, from any state, the
    [onended] slot holds [() => setIsPlaying(false)]. *)
Theorem onended_installed_by_click (evs : list event) (s : Instance) :
  0 < clicks evs →
  onended (audioRef (run evs s)) = Some (SetIsPlaying false).
Proof.
  induction evs as [|ev evs IH] using rev_ind; [cbn; lia|].
  rewrite clicks_snoc, run_snoc.
  destruct ev.
  - intros _. by rewrite step_Click.
  - intros H. rewrite step_MediaEnded. cbn. apply IH. lia.
  - intros H.
    assert (onended (audioRef (run evs s)) = Some (SetIsPlaying false)) as Hs
      by (apply IH; lia).
    destruct (run evs s) as [lbl p [src ld oe [[b]|] rq]]; exact Hs.
Qed.

Lemma onended_installed_by_click_witness :
  0 < clicks [Click; MediaEnded; MediaError] ∧
  onended (audioRef (run [Click; MediaEnded; MediaError] idle_jinny))
  = Some (SetIsPlaying false).
Proof.
  assert (0 < clicks [Click; MediaEnded; MediaError]) as H
    by (vm_compute; lia).
  split; [exact H|].
  exact (onended_installed_by_click [Click; MediaEnded; MediaError]
           idle_jinny H).
Defined.

(** What the request log and the shown state have to do with each other,
    in every state a control can be in. *)
Lemma Reachable_pairing s :
  Reachable s →
  (∀ k, requests (audioRef s) !! k = Some PauseRequest →
     ∃ k', k = S k' ∧ requests (audioRef s) !! k' = Some PlayRequest) ∧
  (isPlaying s = true → last (requests (audioRef s)) = Some PlayRequest).
Proof.
  induction 1 as [backend src lbl|s ev Hs [IHlog IHlast]].
  { split; [intros k Hk; cbn in Hk; by rewrite lookup_nil in Hk|
            discriminate]. }
  destruct ev.
  - rewrite step_Click. cbn [isPlaying audioRef requests].
    destruct (isPlaying s) eqn:Hp; cbn [negb]; split; try discriminate.
    + intros k [Hk|[Hge Hk]]%lookup_app_Some.
      * destruct (IHlog k Hk) as (k' & -> & Hk').
        exists k'. split; [done|]. by apply lookup_app_l_Some.
      * apply list_lookup_singleton_Some in Hk as [Hk _].
        specialize (IHlast eq_refl). rewrite last_lookup in IHlast.
        assert (0 < length (requests (audioRef s))) as Hlen.
        { apply lookup_lt_Some in IHlast. lia. }
        exists (pred (length (requests (audioRef s)))).
        split; [lia|]. by apply lookup_app_l_Some.
    + intros k [Hk|[Hge Hk]]%lookup_app_Some.
      * destruct (IHlog k Hk) as (k' & -> & Hk').
        exists k'. split; [done|]. by apply lookup_app_l_Some.
      * by apply list_lookup_singleton_Some in Hk as [_ ?].
    + intros _. apply last_snoc.
  - rewrite step_MediaEnded. cbn [isPlaying audioRef requests].
    split; [done|].
    destruct (inv_onended s (Reachable_inv s Hs)) as [-> | ->];
      [done|discriminate].
  - by rewrite step_MediaError.
Qed.

(** X6: the control never pauses an element it has not just asked to play:
    in the request log of any trace, every pause request comes directly
    after a play request. *)
Theorem pause_follows_play (evs : list event) (backend : string → bool)
    (src : string) (lbl : option string) (k : nat) :
  let log := requests (audioRef (run evs (mountPlayer backend src lbl))) in
  log !! k = Some PauseRequest →
  ∃ k', k = S k' ∧ log !! k' = Some PlayRequest.
Proof.
  cbn zeta. apply (Reachable_pairing _ (Reachable_trace evs backend src lbl)).
Qed.

Lemma pause_follows_play_witness :
  let log := requests (audioRef (run [Click; MediaEnded; Click; Click]
                                   idle_jinny)) in
  log !! 2 = Some PauseRequest ∧
  ∃ k', 2 = S k' ∧ log !! k' = Some PlayRequest.
Proof.
  cbn zeta. split; [reflexivity|].
  exact (pause_follows_play [Click; MediaEnded; Click; Click] all_clips
           "./wav/experiment0/jinny/ref.wav" (Some "Original") 2 eq_refl).
Defined.

(** X7: what a control shows and what it requests never depend on whether its
    clip can be played: on the same trace, a control with a broken clip and
    one with a playable clip render the same view and issue the same
    requests. *)
Theorem view_independent_of_backend (evs : list event)
    (backend1 backend2 : string → bool) (src : string)
    (lbl : option string) :
  let s1 := run evs (mountPlayer backend1 src lbl) in
  let s2 := run evs (mountPlayer backend2 src lbl) in
  AudioPlayer_view s1 = AudioPlayer_view s2 ∧
  isPlaying s1 = isPlaying s2 ∧
  requests (audioRef s1) = requests (audioRef s2).
Proof.
  cbn zeta.
  assert (label (run evs (mountPlayer backend1 src lbl))
          = label (run evs (mountPlayer backend2 src lbl))
          ∧ isPlaying (run evs (mountPlayer backend1 src lbl))
            = isPlaying (run evs (mountPlayer backend2 src lbl))
          ∧ onended (audioRef (run evs (mountPlayer backend1 src lbl)))
            = onended (audioRef (run evs (mountPlayer backend2 src lbl)))
          ∧ requests (audioRef (run evs (mountPlayer backend1 src lbl)))
            = requests (audioRef (run evs (mountPlayer backend2 src lbl))))
    as (Hl & Hp & _ & Hr).
  { induction evs as [|ev evs (Hl & Hp & He & Hr)] using rev_ind; [done|].
    rewrite !run_snoc. destruct ev.
    - rewrite !step_Click. cbn. by rewrite Hl, Hp, Hr.
    - rewrite !step_MediaEnded. cbn. by rewrite Hl, Hp, He, Hr.
    - by rewrite !step_MediaError by apply Reachable_trace. }
  unfold AudioPlayer_view. by rewrite Hl, Hp.
Qed.

(** X9: after an end-of-stream notification the control is in Idle whatever
    came before, and the next click asks the element to play again. *)
Theorem click_after_end_replays (evs : list event)
    (backend : string → bool) (src : string) (lbl : option string) :
  let s := run (evs ++ [MediaEnded]) (mountPlayer backend src lbl) in
  isPlaying s = false ∧
  isPlaying (step Click s) = true ∧
  requests (audioRef (step Click s))
  = requests (audioRef s) ++ [PlayRequest].
Proof.
  cbn zeta. rewrite run_snoc.
  assert (isPlaying (step MediaEnded
            (run evs (mountPlayer backend src lbl))) = false) as Hidle.
  { pose proof (Reachable_inv _ (Reachable_trace evs backend src lbl))
      as [_ Hend Hplay].
    rewrite step_MediaEnded. cbn.
    destruct Hend as [He|He]; rewrite He; [|done].
    destruct (isPlaying (run evs (mountPlayer backend src lbl))); [|done].
    specialize (Hplay eq_refl). congruence. }
  rewrite step_Click. cbn. by rewrite Hidle.
Qed.

(** ** Several controls at once *)

(** X10: nothing in the handler makes playback exclusive: in a page, a
    click on one idle control and then on another leaves both in Playing,
    and the element of the first has been sent a play request and nothing
    else. *)
Theorem two_controls_play_at_once (pg : Page) (i j : nat)
    (A B : Instance) :
  i ≠ j → controls pg !! i = Some A → controls pg !! j = Some B →
  isPlaying A = false → isPlaying B = false →
  let pg' := page_run [At i Click; At j Click] pg in
  isPlaying <$> controls pg' !! i = Some true ∧
  isPlaying <$> controls pg' !! j = Some true ∧
  requests ∘ audioRef <$> controls pg' !! i
  = Some (requests (audioRef A) ++ [PlayRequest]).
Proof.
  intros Hij HA HB HidleA HidleB. cbn zeta.
  assert (i < length (controls pg)) as Hi by by eapply lookup_lt_Some.
  assert (j < length (controls pg)) as Hj by by eapply lookup_lt_Some.
  unfold page_run. cbn [fold_left]. unfold page_step.
  rewrite (page_click pg i A HA). cbn [page_of].
  rewrite (page_click _ j B) by (by cbn; rewrite list_lookup_insert_ne).
  cbn [page_of controls].
  rewrite list_lookup_insert_ne by done.
  rewrite !list_lookup_insert_eq by (by rewrite ?length_insert).
  rewrite !step_Click. cbn. by rewrite HidleA, HidleB.
Qed.

Lemma two_controls_play_at_once_witness :
  let pg' := page_run [At 0 Click; At 1 Click] (example_page all_clips) in
  isPlaying <$> controls pg' !! 0 = Some true ∧
  isPlaying <$> controls pg' !! 1 = Some true ∧
  requests ∘ audioRef <$> controls pg' !! 0 = Some [PlayRequest].
Proof.
  exact (two_controls_play_at_once (example_page all_clips) 0 1
           idle_jinny
           (mountPlayer all_clips "./wav/experiment0/jinny/out1.wav"
              (Some "Generated"))
           ltac:(discriminate) eq_refl eq_refl eq_refl eq_refl).
Defined.

(** ** The controls of sections, panels and pages *)

Lemma flat_map_imap {A B C} (f : nat → A → B) (h : B → list C)
    (g : A → list C) (l : list A) :
  (∀ i x, h (f i x) = g x) → flat_map h (imap f l) = flat_map g l.
Proof.
  revert f. induction l as [|x l IH]; intros f Hf; [done|].
  cbn. rewrite Hf. f_equal. apply IH. intros i y. apply Hf.
Qed.

Lemma players_TTSSection_of cb title data :
  players (TTSSection_of cb title data).1
  = flat_map players (imap (row_view cb) data).
Proof.
  unfold TTSSection_of. pose proof (array_map_nodes cb 0 data) as H.
  destruct (array_map cb 0 data) as [rows data']. cbn in *. subst rows.
  by rewrite !app_nil_r.
Qed.

Lemma players_ModelSection_of cb title trainData testData :
  players (ModelSection_of (TTSSection_of cb) title trainData testData).1
  = players (TTSSection_of cb "Train (seen data)" trainData).1
    ++ players (TTSSection_of cb "Test (unseen data)" testData).1.
Proof.
  unfold ModelSection_of.
  destruct (TTSSection_of cb "Train (seen data)" trainData).
  destruct (TTSSection_of cb "Test (unseen data)" testData).
  cbn. by rewrite !app_nil_r.
Qed.

Lemma Part000_row_players_view idx row :
  players (row_view Part000.row_cb idx row) = Part000_row_players row.
Proof.
  rewrite Part000_row_view. unfold Part000_row_players.
  by destruct (truthy (generatedSpeech row)).
Qed.

Lemma Part000_row_players_bounds data :
  2 * length data ≤ length (flat_map Part000_row_players data)
  ≤ 3 * length data.
Proof.
  induction data as [|row data IH]; [cbn; lia|].
  cbn [flat_map]. rewrite length_app. unfold Part000_row_players at 1 3.
  destruct (truthy (generatedSpeech row)); cbn; lia.
Qed.

Lemma Part000_players_section title data :
  players (Part000.TTSSection title data).1
  = flat_map Part000_row_players data.
Proof.
  unfold Part000.TTSSection. rewrite players_TTSSection_of.
  apply flat_map_imap, Part000_row_players_view.
Qed.

(** X12: the controls of a section of [part_000] are those of its rows, row
    after row: the original, the generated one when the row has it, the new
    one.  The header adds none, so [N] rows give between [2 N] and [3 N]
    controls. *)
Theorem Part000_section_players (title : string) (data : list TTSData) :
  let ps := players (Part000.TTSSection title data).1 in
  ps = flat_map Part000_row_players data ∧
  2 * length data ≤ length ps ≤ 3 * length data.
Proof.
  cbn zeta. rewrite Part000_players_section.
  split; [done|apply Part000_row_players_bounds].
Qed.

(** X13: the controls of a section of [App.tsx]: always three per row, the
    middle one bound to [generatedSpeech] whatever it is. *)
Theorem App_section_players (title : string) (data : list TTSData) :
  let ps := players (App.TTSSection title data).1 in
  ps = flat_map App_row_players data ∧
  length ps = 3 * length data.
Proof.
  cbn zeta. unfold App.TTSSection. rewrite players_TTSSection_of.
  rewrite (flat_map_imap _ _ App_row_players) by done.
  split; [done|].
  induction data as [|row data IH]; [done|]. cbn in *. lia.
Qed.

Lemma Part000_section_objects title data :
  (Part000.TTSSection title data).2 = data.
Proof.
  unfold Part000.TTSSection. rewrite section_objects_of.
  apply imap_id_on, Part000_row_after.
Qed.

(** X14: the controls of a panel are those of its train rows followed by those
    of its test rows, and rendering the panel leaves both arrays as they
    were. *)
Theorem Part000_panel_players (title : string)
    (trainData testData : list TTSData) :
  players (Part000.ModelSection title trainData testData).1
  = flat_map Part000_row_players trainData
    ++ flat_map Part000_row_players testData ∧
  (Part000.ModelSection title trainData testData).2 = (trainData, testData).
Proof.
  split.
  - unfold Part000.ModelSection, Part000.TTSSection.
    rewrite players_ModelSection_of.
    pose proof Part000_players_section as H.
    unfold Part000.TTSSection in H. by rewrite !H.
  - unfold Part000.ModelSection, ModelSection_of.
    pose proof (Part000_section_objects "Train (seen data)" trainData)
      as Htrain.
    pose proof (Part000_section_objects "Test (unseen data)" testData)
      as Htest.
    destruct (Part000.TTSSection "Train (seen data)" trainData).
    destruct (Part000.TTSSection "Test (unseen data)" testData).
    cbn in *. by subst.
Qed.

(** ** The two revisions side by side *)

Lemma array_map_ext cb1 cb2 idx data :
  (∀ i row, row ∈ data → cb1 i row = cb2 i row) →
  array_map cb1 idx data = array_map cb2 idx data.
Proof.
  revert idx. induction data as [|row rest IH]; intros idx Hcb; [done|].
  cbn. rewrite (Hcb idx row) by apply list_elem_of_here.
  rewrite (IH (S idx)); [done|].
  intros i r Hr. apply Hcb. by apply list_elem_of_further.
Qed.

Lemma row_cb_agree idx row :
  generatedSpeech row ≠ EmptyString →
  App.row_cb idx row = Part000.row_cb idx row.
Proof.
  intros Hset.
  unfold App.row_cb, Part000.row_cb, Part000.generated_cell, row_bind, read.
  destruct (generatedSpeech row) as [|c s] eqn:Hg; [by destruct Hset|].
  cbn. by rewrite !Hg.
Qed.

(** X15: the two revisions of [TTSSection] return the same tree exactly on the
    data in which every row has a [generatedSpeech]: the guard of [part_000]
    is the whole difference between them. *)
Theorem revisions_agree_iff (title : string) (data : list TTSData) :
  (App.TTSSection title data).1 = (Part000.TTSSection title data).1
  ↔ Forall (λ row, generatedSpeech row ≠ EmptyString) data.
Proof.
  split.
  - intros Heq. apply (f_equal section_rows) in Heq.
    unfold App.TTSSection, Part000.TTSSection in Heq.
    rewrite !section_rows_of in Heq.
    apply Forall_lookup. intros i row Hrow.
    apply (f_equal (.!! i)) in Heq.
    rewrite !list_lookup_imap, Hrow in Heq. cbn -[row_view] in Heq.
    rewrite App_row_view, Part000_row_view in Heq.
    destruct (generatedSpeech row); [|done].
    cbn in Heq. discriminate.
  - intros Hall. unfold App.TTSSection, Part000.TTSSection, TTSSection_of.
    rewrite (array_map_ext App.row_cb Part000.row_cb); [done|].
    intros i row Hrow. apply row_cb_agree.
    by apply (proj1 (Forall_forall _ _) Hall).
Qed.

Lemma key_of_imap cb (data : list TTSData) :
  (∀ i row, key_of (row_view cb i row) = Some i) →
  key_of <$> imap (row_view cb) data = Some <$> seq 0 (length data).
Proof.
  intros Hkey. apply list_eq. intros i.
  rewrite !list_lookup_fmap, list_lookup_imap.
  destruct (data !! i) as [row|] eqn:Hrow; cbn.
  - rewrite Hkey, lookup_seq_lt; [done|]. by eapply lookup_lt_Some.
  - rewrite lookup_seq_ge; [done|]. by apply lookup_ge_None.
Qed.

(** X16: the rows of a section carry the keys [0], [1], ..., [N-1] in this
    order, in either revision: every row has a key and no two rows of a
    section share one. *)
Theorem section_row_keys (title : string) (data : list TTSData) :
  let keys := Some <$> seq 0 (length data) in
  key_of <$> section_rows (Part000.TTSSection title data).1 = keys ∧
  key_of <$> section_rows (App.TTSSection title data).1 = keys ∧
  NoDup keys.
Proof.
  cbn zeta. unfold Part000.TTSSection, App.TTSSection.
  rewrite !section_rows_of. repeat split.
  - apply key_of_imap. intros i row. by rewrite Part000_row_view.
  - by apply key_of_imap.
  - apply (NoDup_fmap_2 _), NoDup_seq.
Qed.

(** X17: every row of a section has as many cells as the table has column
    headers, six, in either revision and whatever the row holds. *)
Theorem rows_match_header (title : string) (data : list TTSData) :
  let part000 := (Part000.TTSSection title data).1 in
  let app := (App.TTSSection title data).1 in
  length (section_header_cells part000) = 6 ∧
  Forall (λ tr, length (children_of tr)
                = length (section_header_cells part000))
    (section_rows part000) ∧
  length (section_header_cells app) = 6 ∧
  Forall (λ tr, length (children_of tr) = length (section_header_cells app))
    (section_rows app).
Proof.
  cbn zeta.
  assert (∀ cb, length (section_header_cells (TTSSection_of cb title data).1)
                = 6) as Hhead.
  { intros cb. unfold TTSSection_of. by destruct (array_map cb 0 data). }
  unfold Part000.TTSSection, App.TTSSection.
  rewrite !Hhead, !section_rows_of. repeat split.
  - apply Forall_lookup. intros i tr.
    rewrite list_lookup_imap. destruct (data !! i) as [row|]; [|done].
    intros [= <-]. by rewrite Part000_row_view.
  - apply Forall_lookup. intros i tr.
    rewrite list_lookup_imap. destruct (data !! i) as [row|]; [|done].
    by intros [= <-].
Qed.

(** ** The page as shipped *)

(** The registry of [part_000] agrees with the sample rows used above. *)
Example registry_sample_rows : Registry.experiment0_test = experiment0_test.
Proof. reflexivity. Qed.

(** X18: the page of [part_000] holds the three experiments in source order,
    each with its train and its test section.  Every row of its registry
    has all three clips, so the page has three controls per row, those of
    the rows in registry order, and no two controls of the page are bound to
    the same clip. *)
Theorem Part000_page_controls :
  textContent <$> omap (at_path [0; 0]) (page_panels Part000Page.TTSPage)
  = [ "KhongKhunTTS (YourTTS on TSync2 only)";
      "KhongKhunTTS (YourTTS on TSync2 and CommonVoice)";
      "KhongKhunTTS (YourTTS on LJSpeech + TSync2 and VCTK + CommonVoice + VTC)" ] ∧
  section_count
    <$> flat_map panel_sections (page_panels Part000Page.TTSPage)
  = [Some 2; Some 2; Some 2; Some 3; Some 2; Some 5] ∧
  players Part000Page.TTSPage = flat_map App_row_players registry_rows ∧
  length (players Part000Page.TTSPage) = 3 * length registry_rows ∧
  NoDup (fst <$> players Part000Page.TTSPage).
Proof.
  split; [reflexivity|]. split; [reflexivity|]. split; [reflexivity|].
  split; [reflexivity|].
  apply (bool_decide_unpack _). by vm_compute.
Qed.

(** X19: the page of [App.tsx] is the first panel of the page of [part_000],
    tree for tree: on the rows it ships, the missing guard changes
    nothing. *)
Theorem App_page_is_first_panel :
  page_panels AppPage.TTSPage = take 1 (page_panels Part000Page.TTSPage) ∧
  AppPage.TTSPage = page_shell (take 1 (page_panels Part000Page.TTSPage)).
Proof. split; reflexivity. Qed.

Lemma append_empty_l (s : string) : EmptyString +:+ s = s.
Proof. reflexivity. Qed.

(** X20: the text a rendered row shows is its speaker, its original
    text, the label "Original", the label "Generated" when the row has a
    control for the generated clip, its new text and the label "New
    Generated", in this order: no clip reference is ever shown as text, and
    the empty [generatedSpeech] that the guard of [part_000] leaves in the
    cell adds nothing. *)
Theorem row_text (idx : nat) (row : TTSData) :
  textContent (row_view Part000.row_cb idx row)
  = speakerId row +:+ originalText row +:+ "Original"
    +:+ match generatedSpeech row with
        | EmptyString => EmptyString
        | String _ _ => "Generated"
        end
    +:+ generateText row +:+ "New Generated" ∧
  textContent (row_view App.row_cb idx row)
  = speakerId row +:+ originalText row +:+ "Original" +:+ "Generated"
    +:+ generateText row +:+ "New Generated".
Proof.
  rewrite Part000_row_view, App_row_view.
  unfold table_row, row_cells.
  cbn [textContent fold_right default from_option].
  destruct (generatedSpeech row) as [|c s];
    cbn [truthy textContent default from_option];
    repeat (rewrite append_empty_r || rewrite append_empty_l);
    done.
Qed.
